(** * User resource manager of the serverless CRUD service

    A shallow embedding of [pkg/user/user.go]: the five operations
    [FetchUser], [FetchUsers], [CreateUser], [UpdateUser] and [DeleteUser],
    written over the DynamoDB client interface they receive, with the
    store's hidden state threaded explicitly.

    Go values are modelled as follows.
    - [string] is a byte string: Rocq's [string].
    - a pointer is an [option]: [nil] is [None]; [new(T)] and [&x] are [Some].
    - [error] is an [option error]: [nil] is [None].
    - [map[string]T] is a [gmap string T]; a nil map and an empty map are
      both [∅] (the code only reads them).
    - a function whose results are a pointer and an [error] returns a pair
      of two options, so that having exactly one of the two nil is a theorem
      and not a typing fact. *)

From Stdlib Require Import Ascii String.
From stdpp Require Import base option list strings gmap fin_maps.

(** ** Errors ([errors.New]) *)

Inductive error : Type :=
| errors_New (msg : string).

Definition Error (e : error) : string :=
  match e with errors_New msg => msg end.

(** ** The DynamoDB SDK types used by the package *)

Module dynamodb.

(** [dynamodb.AttributeValue]: a struct of which exactly one field is set. *)
#[warnings="-register-all"]
Inductive AttributeValue : Type :=
| AttrS (s : string)
| AttrN (n : string)
| AttrB (b : string)
| AttrBOOL (b : bool)
| AttrNULL
| AttrSS (ss : list string)
| AttrNS (ns : list string)
| AttrL (l : list AttributeValue)
| AttrM (m : list (string * AttributeValue)).

Record GetItemInput : Type := mkGetItemInput {
  GetItemInput_Key : gmap string AttributeValue;
  GetItemInput_TableName : option string
}.

Record GetItemOutput : Type := mkGetItemOutput {
  GetItemOutput_Item : gmap string AttributeValue
}.

Record ScanInput : Type := mkScanInput {
  ScanInput_TableName : option string
}.

Record ScanOutput : Type := mkScanOutput {
  ScanOutput_Items : list (gmap string AttributeValue)
}.

Record PutItemInput : Type := mkPutItemInput {
  PutItemInput_Item : gmap string AttributeValue;
  PutItemInput_TableName : option string
}.

Record PutItemOutput : Type := mkPutItemOutput {
  PutItemOutput_Attributes : gmap string AttributeValue
}.

Record DeleteItemInput : Type := mkDeleteItemInput {
  DeleteItemInput_Key : gmap string AttributeValue;
  DeleteItemInput_TableName : option string
}.

Record DeleteItemOutput : Type := mkDeleteItemOutput {
  DeleteItemOutput_Attributes : gmap string AttributeValue
}.

End dynamodb.
Import dynamodb.

(** [aws.String(s)] is a pointer to a copy of [s]; [new(string)] is a pointer
    to the zero string. *)
Definition aws_String (s : string) : option string := Some s.
Definition new_string : option string := Some "".

(** ** The client interface ([dynamodbiface.DynamoDBAPI])

    The four methods the package calls.  The table lives behind the client,
    so every method takes the store's state and returns the new one.  A call
    yields either an error ([inl]) or an output ([inr]): user.go reads the
    output only after it has seen a nil error, and the SDK pairs a nil error
    with a non-nil output. *)

Record DynamoDBAPI (St : Type) : Type := mkDynamoDBAPI {
  GetItem : GetItemInput → St → (error + GetItemOutput) * St;
  Scan : ScanInput → St → (error + ScanOutput) * St;
  PutItem : PutItemInput → St → (error + PutItemOutput) * St;
  DeleteItem : DeleteItemInput → St → (error + DeleteItemOutput) * St
}.
Arguments GetItem {St} _ _ _.
Arguments Scan {St} _ _ _.
Arguments PutItem {St} _ _ _.
Arguments DeleteItem {St} _ _ _.

(** A request as the store sees it, and a client that forwards every call to
    another client and appends the request to a log (the usual test double
    for an SDK interface).  The log is how the theorems below speak of "the
    input sent to the store" and of "no store operation". *)

Inductive Call : Type :=
| CallGetItem (input : GetItemInput)
| CallScan (input : ScanInput)
| CallPutItem (input : PutItemInput)
| CallDeleteItem (input : DeleteItemInput).

Definition record {St A} (c : Call) (f : St → A * St)
    (s : St * list Call) : A * (St * list Call) :=
  let '(a, st') := f s.1 in (a, (st', s.2 ++ [c])).

Definition spy {St} (cl : DynamoDBAPI St) : DynamoDBAPI (St * list Call) :=
  {| GetItem := λ i, record (CallGetItem i) (GetItem cl i);
     Scan := λ i, record (CallScan i) (Scan cl i);
     PutItem := λ i, record (CallPutItem i) (PutItem cl i);
     DeleteItem := λ i, record (CallDeleteItem i) (DeleteItem cl i) |}.

(** ** The request ([events.APIGatewayProxyRequest]), the fields read here *)

Module events.

Record APIGatewayProxyRequest : Type := mkAPIGatewayProxyRequest {
  HTTPMethod : string;
  QueryStringParameters : gmap string string;
  Body : string
}.

End events.
Import events.

(** Indexing a Go map of strings: the zero string for a missing key. *)
Definition map_index (m : gmap string string) (k : string) : string :=
  default "" (m !! k).

(** ** Package user *)

Definition ErrorFailedToFetchRecord : string := "failed to fetch record".
Definition ErrorFailedToUnmarshalRecord : string := "failed to unmarshal record".
Definition ErrorInvalidUserData : string := "invalid user data".
Definition ErrorInvalidEmail : string := "invalid email".
Definition ErrorMarshalItem : string := "could not marshal item".
Definition ErrorDeleteItem : string := "could not delete item".
Definition ErrorDynamoPutItem : string := "could not dynamo put item".
Definition ErrorUserAlreadyExists : string := "user already exists".
Definition ErrorUserDoesNotExists : string := "user does not exists".

Record User : Type := mkUser {
  Email : string;
  FirstName : string;
  LastName : string
}.

(** [new(User)] and [var u User]: the zero value. *)
Definition zero_User : User := mkUser "" "" "".

(** The packages user.go imports and this repository does not contain:
    [encoding/json] and [dynamodbattribute], at the types they are used at.
    A decoder writes through its out-pointer, so it takes the target's
    current value and returns the new one next to the error. *)
Class Codecs : Type := {
  json_Unmarshal : string → User → User * option error;
  MarshalMap : User → gmap string AttributeValue * option error;
  UnmarshalMap : gmap string AttributeValue → User → User * option error;
  UnmarshalListOfMaps :
    list (gmap string AttributeValue) → list User → list User * option error
}.

Section user.

Context {St : Type} `{Codecs}.

(** [validators.IsEmailValid]; its file is not part of the sources at
    hand, so the operations are stated for an arbitrary validator. *)
Variable IsEmailValid : string → bool.

Definition FetchUser (email tableName : string)
    (dynaClient : DynamoDBAPI St) (st : St)
    : (option User * option error) * St :=
  let input :=
    {| GetItemInput_Key := {[ "email" := AttrS email ]};
       GetItemInput_TableName := aws_String tableName |} in
  match GetItem dynaClient input st with
  | (inl _, st) => ((None, Some (errors_New ErrorFailedToFetchRecord)), st)
  | (inr result, st) =>
      let item := zero_User in
      match UnmarshalMap (GetItemOutput_Item result) item with
      | (_, Some _) =>
          ((None, Some (errors_New ErrorFailedToUnmarshalRecord)), st)
      | (item, None) => ((Some item, None), st)
      end
  end.

Definition FetchUsers (tableName : string)
    (dynaClient : DynamoDBAPI St) (st : St)
    : (option (list User) * option error) * St :=
  let input := {| ScanInput_TableName := aws_String tableName |} in
  match Scan dynaClient input st with
  | (inl _, st) => ((None, Some (errors_New ErrorFailedToFetchRecord)), st)
  | (inr result, st) =>
      let item := @nil User in
      match UnmarshalListOfMaps (ScanOutput_Items result) item with
      | (_, Some _) =>
          ((None, Some (errors_New ErrorFailedToUnmarshalRecord)), st)
      | (item, None) => ((Some item, None), st)
      end
  end.

Definition CreateUser (req : APIGatewayProxyRequest) (tableName : string)
    (dynaClient : DynamoDBAPI St) (st : St)
    : (option User * option error) * St :=
  match json_Unmarshal (Body req) zero_User with
  | (_, Some _) => ((None, Some (errors_New ErrorInvalidUserData)), st)
  | (createuser, None) =>
      if negb (IsEmailValid (Email createuser)) then
        ((None, Some (errors_New ErrorInvalidEmail)), st)
      else
        let '((curruser, _), st) :=
          FetchUser (Email createuser) tableName dynaClient st in
        if match curruser with
           | Some cu => negb (Nat.eqb (String.length (Email cu)) 0)
           | None => false
           end
        then ((None, Some (errors_New ErrorUserAlreadyExists)), st)
        else
          match MarshalMap createuser with
          | (_, Some _) => ((None, Some (errors_New ErrorMarshalItem)), st)
          | (attrVal, None) =>
              let input :=
                {| PutItemInput_Item := attrVal;
                   PutItemInput_TableName := aws_String tableName |} in
              match PutItem dynaClient input st with
              | (inl _, st) =>
                  ((None, Some (errors_New ErrorDynamoPutItem)), st)
              | (inr _, st) => ((Some createuser, None), st)
              end
          end
  end.

Definition UpdateUser (req : APIGatewayProxyRequest) (tableName : string)
    (dynaClient : DynamoDBAPI St) (st : St)
    : (option User * option error) * St :=
  match json_Unmarshal (Body req) zero_User with
  | (_, Some _) => ((None, Some (errors_New ErrorInvalidUserData)), st)
  | (updateuser, None) =>
      let '((curruser, _), st) :=
        FetchUser (Email updateuser) tableName dynaClient st in
      if match curruser with
         | Some cu => Nat.eqb (String.length (Email cu)) 0
         | None => false
         end
      then ((None, Some (errors_New ErrorUserDoesNotExists)), st)
      else
        match MarshalMap updateuser with
        | (_, Some _) => ((None, Some (errors_New ErrorMarshalItem)), st)
        | (attrbVal, None) =>
            let input :=
              {| PutItemInput_Item := attrbVal;
                 PutItemInput_TableName := aws_String tableName |} in
            match PutItem dynaClient input st with
            | (inl _, st) =>
                ((None, Some (errors_New ErrorDynamoPutItem)), st)
            | (inr _, st) => ((Some updateuser, None), st)
            end
        end
  end.

Definition DeleteUser (req : APIGatewayProxyRequest) (tableName : string)
    (dynaClient : DynamoDBAPI St) (st : St) : option error * St :=
  let email := map_index (QueryStringParameters req) "email" in
  let input :=
    {| DeleteItemInput_Key := {[ "email" := AttrS email ]};
       DeleteItemInput_TableName := new_string |} in
  match DeleteItem dynaClient input st with
  | (inl _, st) => (Some (errors_New ErrorDeleteItem), st)
  | (inr _, st) => (None, st)
  end.

End user.

(** ** Package validators *)

Module validators.

Definition is_letter (c : ascii) : bool :=
  let n := nat_of_ascii c in
  (Nat.leb 65 n && Nat.leb n 90) || (Nat.leb 97 n && Nat.leb n 122).

(** A character of the local part or of the domain: printable, not white
    space, and not the separator [@]. *)
Definition is_segment_char (c : ascii) : bool :=
  let n := nat_of_ascii c in
  Nat.leb 33 n && Nat.leb n 126 && negb (Nat.eqb n 64).

Fixpoint all_chars (p : ascii → bool) (s : string) : bool :=
  match s with
  | EmptyString => true
  | String c s' => p c && all_chars p s'
  end.

(** The text before and after the first occurrence of [sep]. *)
Fixpoint split_first (sep : ascii) (s : string) : option (string * string) :=
  match s with
  | EmptyString => None
  | String c s' =>
      if Ascii.eqb c sep then Some (EmptyString, s')
      else
        match split_first sep s' with
        | Some (a, b) => Some (String c a, b)
        | None => None
        end
  end.

(** The text before and after the last occurrence of [sep]. *)
Fixpoint split_last (sep : ascii) (s : string) : option (string * string) :=
  match s with
  | EmptyString => None
  | String c s' =>
      match split_last sep s' with
      | Some (a, b) => Some (String c a, b)
      | None => if Ascii.eqb c sep then Some (EmptyString, s') else None
      end
  end.

(** Modelled from the spec: validators.IsEmailValid, whose source file is
    missing.  The spec asks for the shape localpart@domain.tld with a
    non-empty local part and domain made of printable characters that are
    not white space, and a top-level domain of at least two letters.  The
    candidate is cut at its first [@] and the remainder at its last dot;
    the separator [@] is not a character of either segment.  The spec
    names a length bound without giving a number, so none is modelled. *)
Definition IsEmailValid (candidate : string) : bool :=
  match split_first "@" candidate with
  | None => false
  | Some (localpart, rest) =>
      match split_last "." rest with
      | None => false
      | Some (domain, tld) =>
          negb (Nat.eqb (String.length localpart) 0)
          && all_chars is_segment_char localpart
          && negb (Nat.eqb (String.length domain) 0)
          && all_chars is_segment_char domain
          && Nat.leb 2 (String.length tld)
          && all_chars is_letter tld
      end
  end.





End validators.

(** ** Reference implementations of the external collaborators

    The operations above are stated for every client and every codec.  The
    instances below are the ones the examples run against: a decoder for
    request bodies, the attribute codec at the type [User], and a table
    store held in memory. *)

Module stub.

(** *** Request bodies: flat JSON objects whose members are strings *)

Definition dquote : ascii := "034"%char.

Definition quoted (s : string) : string :=
  String dquote (s +:+ String dquote EmptyString).

Inductive token : Type :=
| TLBrace | TRBrace | TColon | TComma
| TString (s : string).

Definition is_space (c : ascii) : bool :=
  let n := nat_of_ascii c in
  Nat.eqb n 32 || Nat.eqb n 9 || Nat.eqb n 10 || Nat.eqb n 13.

(** [lit] is the string literal being read, if any.  Escapes are outside
    the fragment: a backslash is rejected. *)
Fixpoint lex (s : string) (lit : option string) : option (list token) :=
  match s with
  | EmptyString => match lit with None => Some [] | Some _ => None end
  | String c s' =>
      match lit with
      | Some acc =>
          if Ascii.eqb c dquote then cons (TString acc) <$> lex s' None
          else if Ascii.eqb c "\" then None
          else lex s' (Some (acc +:+ String c EmptyString))
      | None =>
          if Ascii.eqb c dquote then lex s' (Some EmptyString)
          else if Ascii.eqb c "{" then cons TLBrace <$> lex s' None
          else if Ascii.eqb c "}" then cons TRBrace <$> lex s' None
          else if Ascii.eqb c ":" then cons TColon <$> lex s' None
          else if Ascii.eqb c "," then cons TComma <$> lex s' None
          else if is_space c then lex s' None
          else None
      end
  end.

Fixpoint members (ts : list token) : option (list (string * string)) :=
  match ts with
  | TString k :: TColon :: TString v :: rest =>
      match rest with
      | [TRBrace] => Some [(k, v)]
      | TComma :: rest' => cons (k, v) <$> members rest'
      | _ => None
      end
  | _ => None
  end.

Definition object (ts : list token) : option (list (string * string)) :=
  match ts with
  | [TLBrace; TRBrace] => Some []
  | TLBrace :: rest => members rest
  | _ => None
  end.

Definition set_field (u : User) (kv : string * string) : User :=
  if String.eqb kv.1 "email" then mkUser kv.2 (FirstName u) (LastName u)
  else if String.eqb kv.1 "firstName" then mkUser (Email u) kv.2 (LastName u)
  else if String.eqb kv.1 "lastName" then mkUser (Email u) (FirstName u) kv.2
  else u.

Definition decode_body (body : string) (v : User) : User * option error :=
  match lex body None ≫= object with
  | Some kvs => (foldl set_field v kvs, None)
  | None => (v, Some (errors_New "invalid character"))
  end.

(** *** The attribute codec at [User]

    Field names come from the json tags; an empty string is written as
    NULL and NULL reads back as the zero string; a missing attribute
    leaves the field as it is. *)

Definition encode_string (s : string) : AttributeValue :=
  if String.eqb s "" then AttrNULL else AttrS s.

Definition marshal_user (u : User) : gmap string AttributeValue * option error :=
  (<["email" := encode_string (Email u)]>
     (<["firstName" := encode_string (FirstName u)]>
        {[ "lastName" := encode_string (LastName u) ]}),
   None).

Definition decode_string (old : string) (av : option AttributeValue)
    : option string :=
  match av with
  | None => Some old
  | Some AttrNULL => Some ""
  | Some (AttrS s) => Some s
  | Some (AttrN n) => Some n
  | Some _ => None
  end.

Definition unmarshal_user (m : gmap string AttributeValue) (v : User)
    : User * option error :=
  match decode_string (Email v) (m !! "email"),
        decode_string (FirstName v) (m !! "firstName"),
        decode_string (LastName v) (m !! "lastName") with
  | Some e, Some f, Some l => (mkUser e f l, None)
  | _, _, _ => (v, Some (errors_New "UnmarshalTypeError"))
  end.

Fixpoint unmarshal_users (l : list (gmap string AttributeValue))
    (v : list User) : list User * option error :=
  match l with
  | [] => ([], None)
  | m :: l' =>
      match unmarshal_user m zero_User, unmarshal_users l' v with
      | (u, None), (us, None) => (u :: us, None)
      | (_, Some e), _ => (v, Some e)
      | _, (_, Some e) => (v, Some e)
      end
  end.

#[export] Instance codecs : Codecs :=
  {| json_Unmarshal := decode_body;
     MarshalMap := marshal_user;
     UnmarshalMap := unmarshal_user;
     UnmarshalListOfMaps := unmarshal_users |}.

(** *** A store in memory: table name to (email to item) *)

Definition key_of (m : gmap string AttributeValue) : option string :=
  match m !! "email" with
  | Some (AttrS k) => if String.eqb k "" then None else Some k
  | _ => None
  end.

Definition with_table {A} (name : option string)
    (st : gmap string (gmap string (gmap string AttributeValue)))
    (k : string → gmap string (gmap string AttributeValue) →
         (error + A) * gmap string (gmap string (gmap string AttributeValue)))
    : (error + A) * gmap string (gmap string (gmap string AttributeValue)) :=
  match name with
  | None => (inl (errors_New "InvalidParameter"), st)
  | Some n =>
      match st !! n with
      | None => (inl (errors_New "ResourceNotFoundException"), st)
      | Some t => k n t
      end
  end.

Definition client
    : DynamoDBAPI (gmap string (gmap string (gmap string AttributeValue))) :=
  {| GetItem := λ i st,
       with_table (GetItemInput_TableName i) st (λ n t,
         match key_of (GetItemInput_Key i) with
         | None => (inl (errors_New "ValidationException"), st)
         | Some k => (inr (mkGetItemOutput (default ∅ (t !! k))), st)
         end);
     Scan := λ i st,
       with_table (ScanInput_TableName i) st (λ n t,
         (inr (mkScanOutput (map_to_list t).*2), st));
     PutItem := λ i st,
       with_table (PutItemInput_TableName i) st (λ n t,
         match key_of (PutItemInput_Item i) with
         | None => (inl (errors_New "ValidationException"), st)
         | Some k =>
             (inr (mkPutItemOutput ∅),
              <[n := <[k := PutItemInput_Item i]> t]> st)
         end);
     DeleteItem := λ i st,
       with_table (DeleteItemInput_TableName i) st (λ n t,
         match key_of (DeleteItemInput_Key i) with
         | None => (inl (errors_New "ValidationException"), st)
         | Some k => (inr (mkDeleteItemOutput ∅), <[n := delete k t]> st)
         end) |}.


(** *** Inputs of the examples *)

Definition tableName : string := "go-serverless".

Definition empty_db : gmap string (gmap string (gmap string AttributeValue)) :=
  {[ tableName := ∅ ]}.

Definition body (email first last : string) : string :=
  "{" +:+ quoted "email" +:+ ":" +:+ quoted email +:+ ","
      +:+ quoted "firstName" +:+ ":" +:+ quoted first +:+ ","
      +:+ quoted "lastName" +:+ ":" +:+ quoted last +:+ "}".

Definition body_email (email : string) : string :=
  "{" +:+ quoted "email" +:+ ":" +:+ quoted email +:+ "}".

Definition request (method b : string) : APIGatewayProxyRequest :=
  {| HTTPMethod := method; QueryStringParameters := ∅; Body := b |}.

Definition alice : User := mkUser "a@b.co" "A" "B".

Definition post_alice : APIGatewayProxyRequest :=
  request "POST" (body "a@b.co" "A" "B").

(** The store after alice has been created in the empty table. *)
Definition db_alice : gmap string (gmap string (gmap string AttributeValue)) :=
  (CreateUser validators.IsEmailValid post_alice tableName client empty_db).2.

Definition delete_alice : APIGatewayProxyRequest :=
  {| HTTPMethod := "DELETE";
     QueryStringParameters := {[ "email" := "a@b.co" ]};
     Body := "" |}.

(** A record stored under a key that is not an email address. *)
Definition nope : User := mkUser "nope" "N" "".

Definition db_nope : gmap string (gmap string (gmap string AttributeValue)) :=
  {[ tableName := {[ "nope" := (marshal_user nope).1 ]} ]}.

End stub.

(** ** Vocabulary of the statements *)

(** The lookup request [FetchUser] builds. *)
Definition get_input (email tableName : string) : GetItemInput :=
  {| GetItemInput_Key := {[ "email" := AttrS email ]};
     GetItemInput_TableName := Some tableName |}.

(** Lines 94 to 112 of [CreateUser], which are lines 129 to 147 of
    [UpdateUser]: encode the record, put it, return it. *)
Definition encode_and_put `{Codecs} {St} (u : User) (tableName : string)
    (dynaClient : DynamoDBAPI St) (st : St)
    : (option User * option error) * St :=
  match MarshalMap u with
  | (_, Some _) => ((None, Some (errors_New ErrorMarshalItem)), st)
  | (attrVal, None) =>
      match PutItem dynaClient (mkPutItemInput attrVal (Some tableName)) st with
      | (inl _, st) => ((None, Some (errors_New ErrorDynamoPutItem)), st)
      | (inr _, st) => ((Some u, None), st)
      end
  end.

(** A result pair in which exactly one component is nil. *)
Definition exactly_one {A} (r : option A * option error) : Prop :=
  (is_Some r.1 ∧ r.2 = None) ∨ (r.1 = None ∧ is_Some r.2).

(** Laws of the collaborators that the round-trip property rests on: the
    codec writes the email as the string key attribute and reads back what
    it wrote, and the store returns under a key the item last put there. *)
Definition codec_roundtrip `{Codecs} : Prop :=
  ∀ u av, Email u ≠ "" → MarshalMap u = (av, None) →
    av !! "email" = Some (AttrS (Email u))
    ∧ UnmarshalMap av zero_User = (u, None).

Definition get_after_put {St} (cl : DynamoDBAPI St) : Prop :=
  ∀ item tbl k st out st',
    item !! "email" = Some (AttrS k) →
    PutItem cl (mkPutItemInput item (Some tbl)) st = (inr out, st') →
    GetItem cl (get_input k tbl) st' = (inr (mkGetItemOutput item), st').

(** * Properties *)

Section user_properties.

Context {St : Type} `{Codecs}.
Variable IsEmailValid : string → bool.

Implicit Types (cl : DynamoDBAPI St) (st : St) (log : list Call).
Implicit Types (req : APIGatewayProxyRequest) (u cur : User).

Lemma length_zero (s : string) : Nat.eqb (String.length s) 0 = true ↔ s = "".
Proof. destruct s; simpl; split; congruence. Qed.

(** Running against the recording client gives the result and the store
    state of the plain run, and appends the one lookup. *)
Lemma FetchUser_spy email tbl cl st log :
  FetchUser email tbl (spy cl) (st, log) =
    let '(r, st') := FetchUser email tbl cl st in
    (r, (st', log ++ [CallGetItem (get_input email tbl)])).
Proof.
  unfold FetchUser, spy, record, aws_String, get_input. simpl.
  destruct (GetItem cl _ st) as [[e|out] st1]; simpl; [done|].
  destruct (UnmarshalMap _ _) as [item [e|]]; done.
Qed.

Lemma encode_and_put_spy u tbl cl st log :
  encode_and_put u tbl (spy cl) (st, log) =
    match MarshalMap u with
    | (_, Some _) => ((None, Some (errors_New ErrorMarshalItem)), (st, log))
    | (av, None) =>
        let '(r, st') := encode_and_put u tbl cl st in
        (r, (st', log ++ [CallPutItem (mkPutItemInput av (Some tbl))]))
    end.
Proof.
  unfold encode_and_put, spy, record. simpl.
  destruct (MarshalMap u) as [av [e|]]; [done|].
  destruct (PutItem cl _ st) as [[e|out] st1]; done.
Qed.

(** [CreateUser], step by step. *)
Lemma CreateUser_unfold {S'} req tbl (cl : DynamoDBAPI S') (st : S') u :
  json_Unmarshal (Body req) zero_User = (u, None) →
  IsEmailValid (Email u) = true →
  CreateUser IsEmailValid req tbl cl st =
    match FetchUser (Email u) tbl cl st with
    | ((Some cur, _), st1) =>
        if Nat.eqb (String.length (Email cur)) 0
        then encode_and_put u tbl cl st1
        else ((None, Some (errors_New ErrorUserAlreadyExists)), st1)
    | ((None, _), st1) => encode_and_put u tbl cl st1
    end.
Proof.
  intros Hd Hv. unfold CreateUser, encode_and_put, aws_String.
  rewrite Hd, Hv. simpl.
  destruct (FetchUser _ _ _ _) as [[[cur|] e] st1]; [|done].
  destruct (Nat.eqb _ 0); done.
Qed.

Lemma UpdateUser_unfold {S'} req tbl (cl : DynamoDBAPI S') (st : S') u :
  json_Unmarshal (Body req) zero_User = (u, None) →
  UpdateUser req tbl cl st =
    match FetchUser (Email u) tbl cl st with
    | ((Some cur, _), st1) =>
        if Nat.eqb (String.length (Email cur)) 0
        then ((None, Some (errors_New ErrorUserDoesNotExists)), st1)
        else encode_and_put u tbl cl st1
    | ((None, _), st1) => encode_and_put u tbl cl st1
    end.
Proof.
  intros Hd. unfold UpdateUser, encode_and_put, aws_String.
  rewrite Hd. simpl.
  destruct (FetchUser _ _ _ _) as [[[cur|] e] st1]; [|done].
  destruct (Nat.eqb _ 0); done.
Qed.

Lemma FetchUser_exactly_one email tbl cl st :
  exactly_one (FetchUser email tbl cl st).1.
Proof.
  unfold FetchUser, exactly_one.
  destruct (GetItem cl _ st) as [[e|out] st1]; simpl; [right; eauto|].
  destruct (UnmarshalMap _ _) as [item [e|]]; simpl; [right|left]; eauto.
Qed.


Lemma encode_and_put_exactly_one u tbl cl st :
  exactly_one (encode_and_put u tbl cl st).1.
Proof.
  unfold encode_and_put, exactly_one.
  destruct (MarshalMap u) as [av [e|]]; simpl; [right; eauto|].
  destruct (PutItem cl _ st) as [[e|out] st1]; simpl; [right|left]; eauto.
Qed.

Lemma DeleteUser_spy req tbl cl st log :
  DeleteUser req tbl (spy cl) (st, log) =
    let '(e, st') := DeleteUser req tbl cl st in
    (e, (st',
         (log ++ [CallDeleteItem
                    {| DeleteItemInput_Key :=
                         {[ "email" :=
                              AttrS (map_index (QueryStringParameters req)
                                       "email") ]};
                       DeleteItemInput_TableName := Some "" |}]))).
Proof.
  unfold DeleteUser, spy, record, new_string. simpl.
  destruct (DeleteItem cl _ st) as [[e|out] st1]; done.
Qed.


(** C3. When the body decodes to a user whose email passes the validator
    and the existence check succeeds with a record whose email is not
    empty, [CreateUser] fails with "user already exists"; the store is
    left as the lookup left it and the lookup is the only request it saw.
    The store state is arbitrary, so this covers a second create issued
    after a first one went through. *)
Theorem CreateUser_existing_rejected req tbl cl st u cur st1 :
  json_Unmarshal (Body req) zero_User = (u, None) →
  IsEmailValid (Email u) = true →
  FetchUser (Email u) tbl cl st = ((Some cur, None), st1) →
  Email cur ≠ "" →
  CreateUser IsEmailValid req tbl cl st =
    ((None, Some (errors_New ErrorUserAlreadyExists)), st1)
  ∧ (CreateUser IsEmailValid req tbl (spy cl) (st, [])).2 =
      (st1, [CallGetItem (get_input (Email u) tbl)]).
Proof.
  intros Hd Hv Hf Hne.
  assert (Hz : Nat.eqb (String.length (Email cur)) 0 = false).
  { destruct (Nat.eqb _ 0) eqn:E; [|done]. by apply length_zero in E. }
  split.
  - rewrite (CreateUser_unfold _ _ _ _ u Hd Hv), Hf, Hz. done.
  - rewrite (CreateUser_unfold _ _ _ _ u Hd Hv), FetchUser_spy, Hf, Hz.
    done.
Qed.

(** C4. When the body decodes and the precondition lookup of [UpdateUser]
    succeeds with a record whose email is empty (the convention for an
    absent record), [UpdateUser] fails with "user does not exists"; the
    store is left as the lookup left it and the lookup is the only request
    it saw. *)
Theorem UpdateUser_missing_rejected req tbl cl st u cur st1 :
  json_Unmarshal (Body req) zero_User = (u, None) →
  FetchUser (Email u) tbl cl st = ((Some cur, None), st1) →
  Email cur = "" →
  UpdateUser req tbl cl st =
    ((None, Some (errors_New ErrorUserDoesNotExists)), st1)
  ∧ (UpdateUser req tbl (spy cl) (st, [])).2 =
      (st1, [CallGetItem (get_input (Email u) tbl)]).
Proof.
  intros Hd Hf He.
  assert (Hz : Nat.eqb (String.length (Email cur)) 0 = true)
    by (by apply length_zero).
  split.
  - rewrite (UpdateUser_unfold _ _ _ _ u Hd), Hf, Hz. done.
  - rewrite (UpdateUser_unfold _ _ _ _ u Hd), FetchUser_spy, Hf, Hz. done.
Qed.

(** C5. When the body decodes to a user whose email the validator rejects,
    [CreateUser] fails with "invalid email", the store state is the one it
    started from, and the store saw no request at all: neither the lookup
    nor the put. *)
Theorem CreateUser_invalid_email req tbl cl st log u :
  json_Unmarshal (Body req) zero_User = (u, None) →
  IsEmailValid (Email u) = false →
  CreateUser IsEmailValid req tbl cl st =
    ((None, Some (errors_New ErrorInvalidEmail)), st)
  ∧ CreateUser IsEmailValid req tbl (spy cl) (st, log) =
      ((None, Some (errors_New ErrorInvalidEmail)), (st, log)).
Proof.
  intros Hd Hv. unfold CreateUser. rewrite Hd, Hv. done.
Qed.

(** C6. [FetchUser] reports "failed to fetch record" exactly when the
    point read fails, and "failed to unmarshal record" exactly when the
    read succeeds and decoding its item fails.  When the read succeeds
    with no item, and the decoder leaves its target untouched on an empty
    item, the result is a user with an empty email and a nil error. *)
Theorem FetchUser_classification email tbl cl st :
  ((FetchUser email tbl cl st).1.2
     = Some (errors_New ErrorFailedToFetchRecord)
   ↔ ∃ e st1, GetItem cl (get_input email tbl) st = (inl e, st1))
  ∧ ((FetchUser email tbl cl st).1.2
       = Some (errors_New ErrorFailedToUnmarshalRecord)
     ↔ ∃ res st1 e,
         GetItem cl (get_input email tbl) st = (inr res, st1)
         ∧ (UnmarshalMap (GetItemOutput_Item res) zero_User).2 = Some e)
  ∧ (∀ res st1,
       GetItem cl (get_input email tbl) st = (inr res, st1) →
       GetItemOutput_Item res = ∅ →
       UnmarshalMap ∅ zero_User = (zero_User, None) →
       ∃ item, FetchUser email tbl cl st = ((Some item, None), st1)
               ∧ Email item = "").
Proof.
  unfold FetchUser, aws_String. fold (get_input email tbl).
  destruct (GetItem cl _ st) as [[e|res] st1] eqn:Hg; simpl.
  - split; [|split].
    + split; eauto.
    + split; [done|]. intros (? & ? & ? & ? & _). done.
    + intros ? ? ?. done.
  - destruct (UnmarshalMap (GetItemOutput_Item res) zero_User)
      as [item [e|]] eqn:Hu; simpl.
    + split; [|split].
      * split; [done|]. intros (? & ? & ?). done.
      * split; [|done]. intros _. exists res, st1, e. by rewrite Hu.
      * intros res' st' [= <- <-] He Hz. rewrite He, Hz in Hu. done.
    + split; [|split].
      * split; [done|]. intros (? & ? & ?). done.
      * split; [done|]. intros (r' & s' & e' & [= <- <-] & Hu').
        rewrite Hu in Hu'. done.
      * intros res' st' [= <- <-] He Hz. rewrite He, Hz in Hu.
        injection Hu as <-. by exists zero_User.
Qed.

Lemma CreateUser_success req tbl cl st u st1 :
  CreateUser IsEmailValid req tbl cl st = ((Some u, None), st1) →
  json_Unmarshal (Body req) zero_User = (u, None)
  ∧ IsEmailValid (Email u) = true
  ∧ ∃ st0 av out,
      MarshalMap u = (av, None)
      ∧ PutItem cl (mkPutItemInput av (Some tbl)) st0 = (inr out, st1).
Proof.
  unfold CreateUser, aws_String.
  destruct (json_Unmarshal _ _) as [u' [e|]]; [done|].
  destruct (IsEmailValid (Email u')) eqn:Hv; simpl; [|done].
  destruct (FetchUser _ _ _ _) as [[cur e] st0].
  destruct (match cur with Some _ => _ | None => _ end); [done|].
  destruct (MarshalMap u') as [av [e'|]] eqn:Hm; [done|].
  destruct (PutItem cl _ st0) as [[e'|out] st2] eqn:Hp; [done|].
  intros [= <- <-]. rewrite Hm. eauto 10.
Qed.

(** C7. Over a codec that round-trips and a store that returns what was
    put, with a validator that rejects the empty string: when [CreateUser]
    succeeds with a user, that user is the decoded body, and [FetchUser]
    with its email, run on the store as the create left it, returns the
    same record (email, first name and last name) with a nil error. *)
Theorem Create_then_Fetch req tbl cl st u st1 :
  codec_roundtrip →
  get_after_put cl →
  (∀ s, IsEmailValid s = true → s ≠ "") →
  CreateUser IsEmailValid req tbl cl st = ((Some u, None), st1) →
  json_Unmarshal (Body req) zero_User = (u, None)
  ∧ ∃ got, FetchUser (Email u) tbl cl st1 = ((Some got, None), st1)
           ∧ Email got = Email u
           ∧ FirstName got = FirstName u
           ∧ LastName got = LastName u.
Proof.
  intros Hrt Hgp Hne Hc.
  destruct (CreateUser_success _ _ _ _ _ _ Hc)
    as (Hd & Hv & st0 & av & out & Hm & Hp).
  split; [done|].
  destruct (Hrt u av (Hne _ Hv) Hm) as [Hk Hu].
  pose proof (Hgp _ _ _ _ _ _ Hk Hp) as Hg.
  exists u. unfold FetchUser, aws_String. fold (get_input (Email u) tbl).
  rewrite Hg. simpl. rewrite Hu. done.
Qed.

(** C8. [UpdateUser] has no validator among its inputs.  When the body
    decodes, whatever the email, the error it returns is nil or one of
    "user does not exists", "could not marshal item" and "could not dynamo
    put item"; it is never "invalid email". *)
Theorem UpdateUser_never_InvalidEmail req tbl cl st u :
  json_Unmarshal (Body req) zero_User = (u, None) →
  (UpdateUser req tbl cl st).1.2 ≠ Some (errors_New ErrorInvalidEmail)
  ∧ ((UpdateUser req tbl cl st).1.2 = None
     ∨ (UpdateUser req tbl cl st).1.2
         = Some (errors_New ErrorUserDoesNotExists)
     ∨ (UpdateUser req tbl cl st).1.2 = Some (errors_New ErrorMarshalItem)
     ∨ (UpdateUser req tbl cl st).1.2
         = Some (errors_New ErrorDynamoPutItem)).
Proof.
  intros Hd. rewrite (UpdateUser_unfold _ _ _ _ u Hd).
  assert (He : ∀ st', (encode_and_put u tbl cl st').1.2 = None
               ∨ (encode_and_put u tbl cl st').1.2
                   = Some (errors_New ErrorMarshalItem)
               ∨ (encode_and_put u tbl cl st').1.2
                   = Some (errors_New ErrorDynamoPutItem)).
  { intros st'. unfold encode_and_put.
    destruct (MarshalMap u) as [av [e|]]; simpl; [auto|].
    destruct (PutItem cl _ st') as [[e|out] st2]; simpl; auto. }
  destruct (FetchUser _ _ _ _) as [[[cur|] e] st1].
  - destruct (Nat.eqb _ 0); simpl.
    + split; [done|auto].
    + destruct (He st1) as [->|[->| ->]]; split; auto; done.
  - destruct (He st1) as [->|[->| ->]]; split; auto; done.
Qed.

Lemma FetchUsers_exactly_one tbl cl st :
  exactly_one (FetchUsers tbl cl st).1.
Proof.
  unfold FetchUsers, exactly_one.
  destruct (Scan cl _ st) as [[e|out] st1]; simpl; [right; eauto|].
  destruct (UnmarshalListOfMaps _ _) as [item [e|]]; simpl;
    [right|left]; eauto.
Qed.

Lemma CreateUser_exactly_one req tbl cl st :
  exactly_one (CreateUser IsEmailValid req tbl cl st).1.
Proof.
  destruct (json_Unmarshal (Body req) zero_User) as [u [e|]] eqn:Hd.
  { unfold CreateUser. rewrite Hd. right. simpl. eauto. }
  destruct (IsEmailValid (Email u)) eqn:Hv.
  - rewrite (CreateUser_unfold _ _ _ _ u Hd Hv).
    destruct (FetchUser _ _ _ _) as [[[cur|] e] st1].
    + destruct (Nat.eqb _ 0); [apply encode_and_put_exactly_one|].
      right. simpl. eauto.
    + apply encode_and_put_exactly_one.
  - unfold CreateUser. rewrite Hd, Hv. right. simpl. eauto.
Qed.

Lemma UpdateUser_exactly_one req tbl cl st :
  exactly_one (UpdateUser req tbl cl st).1.
Proof.
  destruct (json_Unmarshal (Body req) zero_User) as [u [e|]] eqn:Hd.
  { unfold UpdateUser. rewrite Hd. right. simpl. eauto. }
  rewrite (UpdateUser_unfold _ _ _ _ u Hd).
  destruct (FetchUser _ _ _ _) as [[[cur|] e] st1].
  - destruct (Nat.eqb _ 0); [|apply encode_and_put_exactly_one].
    right. simpl. eauto.
  - apply encode_and_put_exactly_one.
Qed.

(** C10. Whatever the request, the table, the client and the store, each
    of [FetchUser], [FetchUsers], [CreateUser] and [UpdateUser] returns
    either a result with a nil error or a nil result with an error, never
    both and never neither.  So a nil error from [FetchUser] comes with a
    user, and absence shows only as an empty email. *)
Theorem results_exactly_one req email tbl cl st :
  exactly_one (FetchUser email tbl cl st).1
  ∧ exactly_one (FetchUsers tbl cl st).1
  ∧ exactly_one (CreateUser IsEmailValid req tbl cl st).1
  ∧ exactly_one (UpdateUser req tbl cl st).1
  ∧ ((FetchUser email tbl cl st).1.2 = None →
     is_Some (FetchUser email tbl cl st).1.1).
Proof.
  pose proof (FetchUser_exactly_one email tbl cl st) as Hf.
  split; [done|]. split; [apply FetchUsers_exactly_one|].
  split; [apply CreateUser_exactly_one|].
  split; [apply UpdateUser_exactly_one|].
  intros Hn. destruct Hf as [[? _]|[_ [e He]]]; [done|congruence].
Qed.

End user_properties.

(** ** The validator *)

Section email.

Import validators.
Local Arguments String.append : simpl nomatch.















Lemma IsEmailValid_nonempty s : IsEmailValid s = true → s ≠ "".
Proof. by intros Hv ->. Qed.

End email.

(** ** The reference collaborators obey the laws *)

Section stub_laws.

Import stub.

Lemma decode_encode_string old s :
  decode_string old (Some (encode_string s)) = Some s.
Proof.
  unfold encode_string. destruct (String.eqb_spec s "") as [->|]; done.
Qed.

Lemma stub_codec_roundtrip : @codec_roundtrip stub.codecs.
Proof.
  intros [e f l] av Hne [= <-]. simpl in *. split.
  - rewrite lookup_insert_eq. unfold encode_string.
    destruct (String.eqb_spec e "") as [->|]; done.
  - unfold unmarshal_user.
    rewrite lookup_insert_eq.
    rewrite lookup_insert_ne, lookup_insert_eq by done.
    rewrite !lookup_insert_ne, lookup_singleton_eq by done.
    by rewrite !decode_encode_string.
Qed.

Lemma stub_get_after_put : get_after_put stub.client.
Proof.
  intros item tbl k st out st' Hk. simpl. unfold with_table, key_of.
  rewrite Hk, lookup_singleton_eq.
  destruct (st !! tbl) as [t|] eqn:Ht; [|done].
  destruct (String.eqb k ""); [done|].
  intros [= <- <-]. by rewrite !lookup_insert_eq.
Qed.

End stub_laws.

(** ** The delete path, and the properties at concrete inputs *)

Section examples.

Import stub.

(** C1. Whatever table name [DeleteUser] is given, the one request it sends
    names the table by the empty string.  Run for table "go-serverless" on
    a store that holds a@b.co, the delete fails and the record stays. *)
Theorem DeleteUser_table_name_lost :
  (∀ St req tbl (cl : DynamoDBAPI St) st,
     (DeleteUser req tbl (spy cl) (st, [])).2.2 =
       [CallDeleteItem
          {| DeleteItemInput_Key :=
               {[ "email" :=
                    AttrS (map_index (QueryStringParameters req) "email") ]};
             DeleteItemInput_TableName := Some "" |}])
  ∧ DeleteUser stub.delete_alice "go-serverless" (spy stub.client)
      (stub.db_alice, []) =
      (Some (errors_New ErrorDeleteItem),
       (stub.db_alice,
        [CallDeleteItem
           {| DeleteItemInput_Key := {[ "email" := AttrS "a@b.co" ]};
              DeleteItemInput_TableName := Some "" |}]))
  ∧ (FetchUser "a@b.co" "go-serverless" stub.client stub.db_alice).1 =
      (Some stub.alice, None).
Proof.
  split; [|split].
  - intros St req tbl cl st. rewrite DeleteUser_spy.
    by destruct (DeleteUser req tbl cl st).
  - vm_compute. reflexivity.
  - vm_compute. reflexivity.
Qed.


(** Create alice twice: the first call stores her, the second is refused. *)
Lemma CreateUser_existing_rejected_witness :
  CreateUser validators.IsEmailValid post_alice tableName client empty_db
    = ((Some alice, None), db_alice)
  ∧ FetchUser (Email alice) tableName client db_alice
    = ((Some alice, None), db_alice)
  ∧ CreateUser validators.IsEmailValid post_alice tableName client db_alice
    = ((None, Some (errors_New ErrorUserAlreadyExists)), db_alice).
Proof.
  split; [vm_compute; reflexivity|]. split; [vm_compute; reflexivity|].
  refine (proj1 (CreateUser_existing_rejected validators.IsEmailValid
                   post_alice tableName client db_alice alice alice db_alice
                   _ _ _ _)).
  - reflexivity.
  - reflexivity.
  - vm_compute. reflexivity.
  - discriminate.
Defined.

(** Update alice in the empty table. *)
Lemma UpdateUser_missing_rejected_witness :
  FetchUser (Email alice) tableName client empty_db
    = ((Some zero_User, None), empty_db)
  ∧ UpdateUser post_alice tableName client empty_db
    = ((None, Some (errors_New ErrorUserDoesNotExists)), empty_db).
Proof.
  split; [vm_compute; reflexivity|].
  refine (proj1 (UpdateUser_missing_rejected post_alice tableName client
                   empty_db alice zero_User empty_db _ _ _)).
  - reflexivity.
  - vm_compute. reflexivity.
  - reflexivity.
Defined.

(** The body that holds only the email not-an-email. *)
Lemma CreateUser_invalid_email_witness :
  validators.IsEmailValid "not-an-email" = false
  ∧ CreateUser validators.IsEmailValid
      (request "POST" (body_email "not-an-email")) tableName (spy client)
      (db_alice, [])
    = ((None, Some (errors_New ErrorInvalidEmail)), (db_alice, [])).
Proof.
  split; [reflexivity|].
  refine (proj2 (CreateUser_invalid_email validators.IsEmailValid
                   (request "POST" (body_email "not-an-email")) tableName
                   client db_alice [] (mkUser "not-an-email" "" "") _ _)).
  - reflexivity.
  - reflexivity.
Defined.

(** A lookup in the empty table. *)
Lemma FetchUser_classification_witness :
  GetItem client (get_input "a@b.co" tableName) empty_db
    = (inr (mkGetItemOutput ∅), empty_db)
  ∧ UnmarshalMap ∅ zero_User = (zero_User, None)
  ∧ ∃ item, FetchUser "a@b.co" tableName client empty_db
              = ((Some item, None), empty_db)
            ∧ Email item = "".
Proof.
  split; [vm_compute; reflexivity|]. split; [reflexivity|].
  refine (proj2 (proj2 (FetchUser_classification "a@b.co" tableName client
                          empty_db)) (mkGetItemOutput ∅) empty_db _ _ _).
  - vm_compute. reflexivity.
  - reflexivity.
  - reflexivity.
Defined.

(** Create alice in the empty table, then fetch her. *)
Lemma Create_then_Fetch_witness :
  CreateUser validators.IsEmailValid post_alice tableName client empty_db
    = ((Some alice, None), db_alice)
  ∧ ∃ got, FetchUser "a@b.co" tableName client db_alice
             = ((Some got, None), db_alice)
           ∧ Email got = "a@b.co"
           ∧ FirstName got = "A"
           ∧ LastName got = "B".
Proof.
  split; [vm_compute; reflexivity|].
  refine (proj2 (Create_then_Fetch validators.IsEmailValid post_alice
                   tableName client empty_db alice db_alice
                   stub_codec_roundtrip stub_get_after_put
                   IsEmailValid_nonempty _)).
  vm_compute. reflexivity.
Defined.

(** An update under a key the validator rejects goes through. *)
Lemma UpdateUser_never_InvalidEmail_witness :
  validators.IsEmailValid "nope" = false
  ∧ (UpdateUser (request "PUT" (body "nope" "M" "")) tableName client
       db_nope).1 = (Some (mkUser "nope" "M" ""), None)
  ∧ (UpdateUser (request "PUT" (body "nope" "M" "")) tableName client
       db_nope).1.2 ≠ Some (errors_New ErrorInvalidEmail).
Proof.
  split; [reflexivity|]. split; [vm_compute; reflexivity|].
  refine (proj1 (UpdateUser_never_InvalidEmail
                   (request "PUT" (body "nope" "M" "")) tableName client
                   db_nope (mkUser "nope" "M" "") _)).
  reflexivity.
Defined.


(** A fetch of alice returns her with a nil error. *)
Lemma results_exactly_one_witness :
  (FetchUser "a@b.co" tableName client db_alice).1.2 = None
  ∧ is_Some (FetchUser "a@b.co" tableName client db_alice).1.1.
Proof.
  split; [vm_compute; reflexivity|].
  refine (proj2 (proj2 (proj2 (proj2
            (results_exactly_one validators.IsEmailValid post_alice "a@b.co"
               tableName client db_alice)))) _).
  vm_compute. reflexivity.
Defined.

End examples.

(** * Further properties of package user *)

Section user_operations.

Context {St : Type} `{Codecs}.
Variable IsEmailValid : string → bool.

Implicit Types (cl : DynamoDBAPI St) (st : St) (log : list Call).
Implicit Types (req : APIGatewayProxyRequest) (u cur : User).

Lemma nonempty_length (s : string) :
  s ≠ "" → Nat.eqb (String.length s) 0 = false.
Proof. by destruct s. Qed.

Lemma encode_and_put_success u u' tbl cl st1 st2 :
  encode_and_put u tbl cl st1 = ((Some u', None), st2) ↔
  u' = u ∧ ∃ av out, MarshalMap u = (av, None)
                     ∧ PutItem cl (mkPutItemInput av (Some tbl)) st1
                       = (inr out, st2).
Proof.
  unfold encode_and_put. destruct (MarshalMap u) as [av [e|]].
  - split; [done|]. intros (_ & ? & ? & ? & _). done.
  - destruct (PutItem cl _ st1) as [[e|out] st'] eqn:Hp.
    + split; [done|]. intros (_ & av' & ? & [= <-] & Hp').
      rewrite Hp in Hp'. done.
    + split.
      * intros [= <- <-]. eauto.
      * intros (-> & av' & out' & [= <-] & Hp'). rewrite Hp in Hp'.
        by injection Hp' as _ <-.
Qed.

Lemma encode_and_put_errors u tbl cl st :
  (encode_and_put u tbl cl st).1.2 = None
  ∨ (encode_and_put u tbl cl st).1.2 = Some (errors_New ErrorMarshalItem)
  ∨ (encode_and_put u tbl cl st).1.2 = Some (errors_New ErrorDynamoPutItem).
Proof.
  unfold encode_and_put. destruct (MarshalMap u) as [av [e|]]; simpl; [auto|].
  destruct (PutItem cl _ st) as [[e|out] st2]; simpl; auto.
Qed.

(** What a lookup returns once the record has been put, over a lawful codec
    and store. *)
Lemma FetchUser_after_put u av tbl cl st0 out st1 :
  codec_roundtrip → get_after_put cl → Email u ≠ "" →
  MarshalMap u = (av, None) →
  PutItem cl (mkPutItemInput av (Some tbl)) st0 = (inr out, st1) →
  FetchUser (Email u) tbl cl st1 = ((Some u, None), st1).
Proof.
  intros Hrt Hgp Hne Hm Hp. destruct (Hrt u av Hne Hm) as [Hk Hu].
  unfold FetchUser, aws_String. fold (get_input (Email u) tbl).
  rewrite (Hgp _ _ _ _ _ _ Hk Hp). simpl. by rewrite Hu.
Qed.

Lemma FetchUsers_spy tbl cl st log :
  FetchUsers tbl (spy cl) (st, log) =
    let '(r, st') := FetchUsers tbl cl st in
    (r, (st', log ++ [CallScan (mkScanInput (Some tbl))])).
Proof.
  unfold FetchUsers, spy, record, aws_String. simpl.
  destruct (Scan cl _ st) as [[e|out] st1]; simpl; [done|].
  destruct (UnmarshalListOfMaps _ _) as [item [e|]]; done.
Qed.

(** X1. [FetchUsers] reports "failed to fetch record" exactly when the scan
    fails and "failed to unmarshal record" exactly when the scan succeeds
    and decoding its items fails; otherwise it returns the decoded list,
    which is a list even when it is empty.  The store sees one request: a
    scan of the table named. *)
Theorem FetchUsers_classification tbl cl st :
  ((FetchUsers tbl cl st).1.2 = Some (errors_New ErrorFailedToFetchRecord)
   ↔ ∃ e st1, Scan cl (mkScanInput (Some tbl)) st = (inl e, st1))
  ∧ ((FetchUsers tbl cl st).1.2
       = Some (errors_New ErrorFailedToUnmarshalRecord)
     ↔ ∃ res st1 e,
         Scan cl (mkScanInput (Some tbl)) st = (inr res, st1)
         ∧ (UnmarshalListOfMaps (ScanOutput_Items res) []).2 = Some e)
  ∧ (∀ res st1 us,
       Scan cl (mkScanInput (Some tbl)) st = (inr res, st1) →
       UnmarshalListOfMaps (ScanOutput_Items res) [] = (us, None) →
       FetchUsers tbl cl st = ((Some us, None), st1))
  ∧ (FetchUsers tbl (spy cl) (st, [])).2.2
      = [CallScan (mkScanInput (Some tbl))].
Proof.
  split; [|split; [|split]]; cycle 3.
  { rewrite FetchUsers_spy. by destruct (FetchUsers tbl cl st). }
  all: unfold FetchUsers, aws_String;
    destruct (Scan cl _ st) as [[e|res] st1] eqn:Hs; simpl.
  - split; eauto.
  - destruct (UnmarshalListOfMaps _ _) as [us [e|]]; simpl;
      (split; [done|]); intros (? & ? & ?); done.
  - split; [done|]. intros (? & ? & ? & ? & _). done.
  - destruct (UnmarshalListOfMaps (ScanOutput_Items res) [])
      as [us [e|]] eqn:Hu; simpl.
    + split; [|done]. intros _. exists res, st1, e. by rewrite Hu.
    + split; [done|]. intros (r' & s' & e' & [= <- <-] & Hu').
      rewrite Hu in Hu'. done.
  - done.
  - intros res' st' us [= <- <-] Hu. by rewrite Hu.
Qed.

(** X2. A body that does not decode stops [CreateUser] and [UpdateUser] at
    once with "invalid user data": the store sees no request and keeps its
    state. *)
Theorem decode_failure_no_request req tbl cl st log u e :
  json_Unmarshal (Body req) zero_User = (u, Some e) →
  CreateUser IsEmailValid req tbl (spy cl) (st, log)
    = ((None, Some (errors_New ErrorInvalidUserData)), (st, log))
  ∧ UpdateUser req tbl (spy cl) (st, log)
    = ((None, Some (errors_New ErrorInvalidUserData)), (st, log)).
Proof.
  intros Hd. unfold CreateUser, UpdateUser. by rewrite Hd.
Qed.

(** X3. The requests of a [CreateUser], whatever its input: none, or the
    lookup of the decoded email, or that lookup followed by one put of the
    encoded record, all on the table named; never a scan or a delete.  The
    recording client changes neither result nor store, and a create that
    succeeds has done both the lookup and the put. *)
Theorem CreateUser_requests req tbl cl st :
  let u := (json_Unmarshal (Body req) zero_User).1 in
  let get := CallGetItem (get_input (Email u) tbl) in
  let put := CallPutItem (mkPutItemInput (MarshalMap u).1 (Some tbl)) in
  let run := CreateUser IsEmailValid req tbl (spy cl) (st, []) in
  (run.1, run.2.1) = CreateUser IsEmailValid req tbl cl st
  ∧ (run.2.2 = [] ∨ run.2.2 = [get] ∨ run.2.2 = [get; put])
  ∧ (is_Some run.1.1 → run.2.2 = [get; put]).
Proof.
  cbv zeta. destruct (json_Unmarshal (Body req) zero_User) as [u [e|]] eqn:Hd.
  { unfold CreateUser. rewrite Hd. simpl.
    split; [done|]. split; [auto|]. by intros [? ?]. }
  destruct (IsEmailValid (Email u)) eqn:Hv; cycle 1.
  { unfold CreateUser. rewrite Hd, Hv. simpl.
    split; [done|]. split; [auto|]. by intros [? ?]. }
  rewrite !(CreateUser_unfold IsEmailValid _ _ _ _ u Hd Hv), FetchUser_spy.
  simpl.
  destruct (FetchUser (Email u) tbl cl st) as [[[cur|] e] st1];
    [destruct (Nat.eqb _ 0)|];
    rewrite ?encode_and_put_spy; unfold encode_and_put;
    try (destruct (MarshalMap u) as [av [e'|]]; simpl;
         try destruct (PutItem cl _ st1) as [[?|?] ?]; simpl);
    (split; [done|]; split; [auto|]; first [by intros [? ?]|done]).
Qed.

(** X4. The requests of an [UpdateUser]: the same three shapes, with the
    same guarantees. *)
Theorem UpdateUser_requests req tbl cl st :
  let u := (json_Unmarshal (Body req) zero_User).1 in
  let get := CallGetItem (get_input (Email u) tbl) in
  let put := CallPutItem (mkPutItemInput (MarshalMap u).1 (Some tbl)) in
  let run := UpdateUser req tbl (spy cl) (st, []) in
  (run.1, run.2.1) = UpdateUser req tbl cl st
  ∧ (run.2.2 = [] ∨ run.2.2 = [get] ∨ run.2.2 = [get; put])
  ∧ (is_Some run.1.1 → run.2.2 = [get; put]).
Proof.
  cbv zeta. destruct (json_Unmarshal (Body req) zero_User) as [u [e|]] eqn:Hd.
  { unfold UpdateUser. rewrite Hd. simpl.
    split; [done|]. split; [auto|]. by intros [? ?]. }
  rewrite !(UpdateUser_unfold _ _ _ _ u Hd), FetchUser_spy. simpl.
  destruct (FetchUser (Email u) tbl cl st) as [[[cur|] e] st1];
    [destruct (Nat.eqb _ 0)|];
    rewrite ?encode_and_put_spy; unfold encode_and_put;
    try (destruct (MarshalMap u) as [av [e'|]]; simpl;
         try destruct (PutItem cl _ st1) as [[?|?] ?]; simpl);
    (split; [done|]; split; [auto|]; first [by intros [? ?]|done]).
Qed.

(** X5. [CreateUser] returns a user exactly when the body decodes to that
    user, the validator accepts its email, the lookup does not come back
    with a record of non-empty email (an error of the lookup counts as
    absent), the record encodes and the put succeeds.  The user returned is
    the decoded body and the store is left as the put left it. *)
Theorem CreateUser_success_iff req tbl cl st u st2 :
  CreateUser IsEmailValid req tbl cl st = ((Some u, None), st2) ↔
  json_Unmarshal (Body req) zero_User = (u, None)
  ∧ IsEmailValid (Email u) = true
  ∧ ∃ r e st1 av out,
      FetchUser (Email u) tbl cl st = ((r, e), st1)
      ∧ (∀ cur, r = Some cur → Email cur = "")
      ∧ MarshalMap u = (av, None)
      ∧ PutItem cl (mkPutItemInput av (Some tbl)) st1 = (inr out, st2).
Proof.
  split.
  - destruct (json_Unmarshal (Body req) zero_User) as [u' [e|]] eqn:Hd.
    { unfold CreateUser. by rewrite Hd. }
    destruct (IsEmailValid (Email u')) eqn:Hv; cycle 1.
    { unfold CreateUser. by rewrite Hd, Hv. }
    rewrite (CreateUser_unfold IsEmailValid _ _ _ _ u' Hd Hv).
    destruct (FetchUser (Email u') tbl cl st) as [[r e] st1] eqn:Hf.
    assert (encode_and_put u' tbl cl st1 = ((Some u, None), st2) →
            (∀ cur, r = Some cur → Email cur = "") →
            (u', @None error) = (u, None) ∧ IsEmailValid (Email u) = true
            ∧ ∃ r0 e0 st0 av out,
                FetchUser (Email u) tbl cl st = ((r0, e0), st0)
                ∧ (∀ cur, r0 = Some cur → Email cur = "")
                ∧ MarshalMap u = (av, None)
                ∧ PutItem cl (mkPutItemInput av (Some tbl)) st0
                  = (inr out, st2)) as Hgo.
    { intros (-> & av & out & Hm & Hp)%encode_and_put_success Hr.
      split; [done|]. split; [done|]. eauto 10. }
    destruct r as [cur|]; [|intros He; by apply Hgo].
    destruct (Nat.eqb _ 0) eqn:Hz; [|done].
    intros He. apply Hgo; [done|]. intros ? [= <-]. by apply length_zero.
  - intros (Hd & Hv & r & e & st1 & av & out & Hf & Hr & Hm & Hp).
    rewrite (CreateUser_unfold IsEmailValid _ _ _ _ u Hd Hv), Hf.
    assert (encode_and_put u tbl cl st1 = ((Some u, None), st2)) as He
      by (apply encode_and_put_success; eauto).
    destruct r as [cur|]; [|done].
    rewrite (Hr cur eq_refl). done.
Qed.

(** X6. The error of a [CreateUser] is nil or one of "invalid user data",
    "invalid email", "user already exists", "could not marshal item" and
    "could not dynamo put item".  The two errors of the lookup never reach
    the caller. *)
Theorem CreateUser_errors req tbl cl st :
  ((CreateUser IsEmailValid req tbl cl st).1.2 = None
   ∨ (CreateUser IsEmailValid req tbl cl st).1.2
       = Some (errors_New ErrorInvalidUserData)
   ∨ (CreateUser IsEmailValid req tbl cl st).1.2
       = Some (errors_New ErrorInvalidEmail)
   ∨ (CreateUser IsEmailValid req tbl cl st).1.2
       = Some (errors_New ErrorUserAlreadyExists)
   ∨ (CreateUser IsEmailValid req tbl cl st).1.2
       = Some (errors_New ErrorMarshalItem)
   ∨ (CreateUser IsEmailValid req tbl cl st).1.2
       = Some (errors_New ErrorDynamoPutItem))
  ∧ (CreateUser IsEmailValid req tbl cl st).1.2
      ≠ Some (errors_New ErrorFailedToFetchRecord)
  ∧ (CreateUser IsEmailValid req tbl cl st).1.2
      ≠ Some (errors_New ErrorFailedToUnmarshalRecord).
Proof.
  assert (Hstep : ∀ o : option error,
            o = None ∨ o = Some (errors_New ErrorInvalidUserData)
            ∨ o = Some (errors_New ErrorInvalidEmail)
            ∨ o = Some (errors_New ErrorUserAlreadyExists)
            ∨ o = Some (errors_New ErrorMarshalItem)
            ∨ o = Some (errors_New ErrorDynamoPutItem) →
            o ≠ Some (errors_New ErrorFailedToFetchRecord)
            ∧ o ≠ Some (errors_New ErrorFailedToUnmarshalRecord)).
  { intros o [->|[->|[->|[->|[->| ->]]]]]; done. }
  assert ((CreateUser IsEmailValid req tbl cl st).1.2 = None
   ∨ (CreateUser IsEmailValid req tbl cl st).1.2
       = Some (errors_New ErrorInvalidUserData)
   ∨ (CreateUser IsEmailValid req tbl cl st).1.2
       = Some (errors_New ErrorInvalidEmail)
   ∨ (CreateUser IsEmailValid req tbl cl st).1.2
       = Some (errors_New ErrorUserAlreadyExists)
   ∨ (CreateUser IsEmailValid req tbl cl st).1.2
       = Some (errors_New ErrorMarshalItem)
   ∨ (CreateUser IsEmailValid req tbl cl st).1.2
       = Some (errors_New ErrorDynamoPutItem)) as Hset;
    [|split; [exact Hset|exact (Hstep _ Hset)]].
  destruct (json_Unmarshal (Body req) zero_User) as [u [e|]] eqn:Hd.
  { unfold CreateUser. rewrite Hd. auto. }
  destruct (IsEmailValid (Email u)) eqn:Hv; cycle 1.
  { unfold CreateUser. rewrite Hd, Hv. simpl. auto. }
  rewrite (CreateUser_unfold IsEmailValid _ _ _ _ u Hd Hv).
  destruct (FetchUser (Email u) tbl cl st) as [[[cur|] e] st1];
    [destruct (Nat.eqb _ 0); [|simpl; auto 10]|];
    destruct (encode_and_put_errors u tbl cl st1) as [->|[->| ->]]; auto 10.
Qed.

(** X7. [UpdateUser] returns a user exactly when the body decodes to that
    user, the lookup does not come back with a record of empty email (an
    error of the lookup counts as present), the record encodes and the put
    succeeds.  The email is not checked against the validator. *)
Theorem UpdateUser_success_iff req tbl cl st u st2 :
  UpdateUser req tbl cl st = ((Some u, None), st2) ↔
  json_Unmarshal (Body req) zero_User = (u, None)
  ∧ ∃ r e st1 av out,
      FetchUser (Email u) tbl cl st = ((r, e), st1)
      ∧ (∀ cur, r = Some cur → Email cur ≠ "")
      ∧ MarshalMap u = (av, None)
      ∧ PutItem cl (mkPutItemInput av (Some tbl)) st1 = (inr out, st2).
Proof.
  split.
  - destruct (json_Unmarshal (Body req) zero_User) as [u' [e|]] eqn:Hd.
    { unfold UpdateUser. by rewrite Hd. }
    rewrite (UpdateUser_unfold _ _ _ _ u' Hd).
    destruct (FetchUser (Email u') tbl cl st) as [[r e] st1] eqn:Hf.
    assert (encode_and_put u' tbl cl st1 = ((Some u, None), st2) →
            (∀ cur, r = Some cur → Email cur ≠ "") →
            (u', @None error) = (u, None)
            ∧ ∃ r0 e0 st0 av out,
                FetchUser (Email u) tbl cl st = ((r0, e0), st0)
                ∧ (∀ cur, r0 = Some cur → Email cur ≠ "")
                ∧ MarshalMap u = (av, None)
                ∧ PutItem cl (mkPutItemInput av (Some tbl)) st0
                  = (inr out, st2)) as Hgo.
    { intros (-> & av & out & Hm & Hp)%encode_and_put_success Hr.
      split; [done|]. eauto 10. }
    destruct r as [cur|]; [|intros He; by apply Hgo].
    destruct (Nat.eqb _ 0) eqn:Hz; [done|].
    intros He. apply Hgo; [done|]. intros ? [= <-] He'.
    apply length_zero in He'. congruence.
  - intros (Hd & r & e & st1 & av & out & Hf & Hr & Hm & Hp).
    rewrite (UpdateUser_unfold _ _ _ _ u Hd), Hf.
    assert (encode_and_put u tbl cl st1 = ((Some u, None), st2)) as He
      by (apply encode_and_put_success; eauto).
    destruct r as [cur|]; [|done].
    by rewrite (nonempty_length _ (Hr cur eq_refl)).
Qed.

Lemma UpdateUser_success req tbl cl st u st2 :
  UpdateUser req tbl cl st = ((Some u, None), st2) →
  json_Unmarshal (Body req) zero_User = (u, None)
  ∧ ∃ st1 av out,
      MarshalMap u = (av, None)
      ∧ PutItem cl (mkPutItemInput av (Some tbl)) st1 = (inr out, st2).
Proof.
  destruct (json_Unmarshal (Body req) zero_User) as [u' [e|]] eqn:Hd.
  { unfold UpdateUser. by rewrite Hd. }
  rewrite (UpdateUser_unfold _ _ _ _ u' Hd).
  destruct (FetchUser (Email u') tbl cl st) as [[[cur|] e] st1];
    [destruct (Nat.eqb _ 0); [done|]|];
    intros (-> & av & out & Hm & Hp)%encode_and_put_success; eauto 10.
Qed.

(** X8. Update replaces the whole record.  Over a codec that round-trips
    and a store that returns what was put, when [UpdateUser] succeeds with a
    user of non-empty email, [FetchUser] with that email, run on the store
    as the update left it, returns exactly the user of the body: a name the
    body left out reads back as the zero string, not as its old value. *)
Theorem Update_then_Fetch req tbl cl st u st1 :
  codec_roundtrip →
  get_after_put cl →
  Email u ≠ "" →
  UpdateUser req tbl cl st = ((Some u, None), st1) →
  json_Unmarshal (Body req) zero_User = (u, None)
  ∧ FetchUser (Email u) tbl cl st1 = ((Some u, None), st1).
Proof.
  intros Hrt Hgp Hne Hu.
  destruct (UpdateUser_success _ _ _ _ _ _ Hu)
    as (Hd & st0 & av & out & Hm & Hp).
  split; [done|]. by eapply FetchUser_after_put.
Qed.

(** X9. Create does not overwrite.  Over a codec that round-trips, a store
    that returns what was put and a validator that rejects the empty
    string: after a [CreateUser] that succeeded with a user, a further
    [CreateUser] whose body decodes to the same email (with whatever names)
    fails with "user already exists", leaves the store as it was, and a
    [FetchUser] still returns the first user. *)
Theorem Create_twice req req' tbl cl st u u' st1 :
  codec_roundtrip →
  get_after_put cl →
  (∀ s, IsEmailValid s = true → s ≠ "") →
  CreateUser IsEmailValid req tbl cl st = ((Some u, None), st1) →
  json_Unmarshal (Body req') zero_User = (u', None) →
  Email u' = Email u →
  CreateUser IsEmailValid req' tbl cl st1
    = ((None, Some (errors_New ErrorUserAlreadyExists)), st1)
  ∧ FetchUser (Email u) tbl cl st1 = ((Some u, None), st1).
Proof.
  intros Hrt Hgp Hne Hc Hd' He.
  destruct (CreateUser_success IsEmailValid _ _ _ _ _ _ Hc)
    as (Hd & Hv & st0 & av & out & Hm & Hp).
  pose proof (FetchUser_after_put u av tbl cl st0 out st1
                Hrt Hgp (Hne _ Hv) Hm Hp) as Hf.
  split; [|done].
  assert (Hv' : IsEmailValid (Email u') = true) by by rewrite He.
  rewrite (CreateUser_unfold IsEmailValid _ _ _ _ u' Hd' Hv'), He, Hf.
  by rewrite (nonempty_length _ (Hne _ Hv)).
Qed.

(** X10. On one store and one body, once the lookup has succeeded exactly
    one of create and update goes on to the write, and it is the same
    write: with an empty email in the record found, create encodes and puts
    while update fails with "user does not exists"; with a non-empty one,
    create fails with "user already exists" while update encodes and
    puts. *)
Theorem create_update_complementary req tbl cl st u cur st1 :
  json_Unmarshal (Body req) zero_User = (u, None) →
  IsEmailValid (Email u) = true →
  FetchUser (Email u) tbl cl st = ((Some cur, None), st1) →
  (Email cur = ""
   ∧ CreateUser IsEmailValid req tbl cl st = encode_and_put u tbl cl st1
   ∧ UpdateUser req tbl cl st
     = ((None, Some (errors_New ErrorUserDoesNotExists)), st1))
  ∨ (Email cur ≠ ""
     ∧ CreateUser IsEmailValid req tbl cl st
       = ((None, Some (errors_New ErrorUserAlreadyExists)), st1)
     ∧ UpdateUser req tbl cl st = encode_and_put u tbl cl st1).
Proof.
  intros Hd Hv Hf.
  rewrite (CreateUser_unfold IsEmailValid _ _ _ _ u Hd Hv), Hf.
  rewrite (UpdateUser_unfold _ _ _ _ u Hd), Hf.
  destruct (Nat.eqb (String.length (Email cur)) 0) eqn:Hz.
  - left. by apply length_zero in Hz.
  - right. split; [|done]. intros He. apply length_zero in He. congruence.
Qed.

(** X11. [DeleteUser] checks nothing before it deletes: it sends one delete
    request and no lookup, reports "could not delete item" exactly when
    that request fails and nil exactly when it succeeds, and leaves the
    store as the request left it.  A request without an email parameter is
    not refused: the key sent is the empty string. *)
Theorem DeleteUser_classification req tbl cl st :
  let input :=
    {| DeleteItemInput_Key :=
         {[ "email" := AttrS (map_index (QueryStringParameters req) "email") ]};
       DeleteItemInput_TableName := Some "" |} in
  ((DeleteUser req tbl cl st).1 = Some (errors_New ErrorDeleteItem)
   ↔ ∃ e st1, DeleteItem cl input st = (inl e, st1))
  ∧ ((DeleteUser req tbl cl st).1 = None
     ↔ ∃ out st1, DeleteItem cl input st = (inr out, st1))
  ∧ (DeleteUser req tbl cl st).2 = (DeleteItem cl input st).2
  ∧ (QueryStringParameters req !! "email" = None →
     (DeleteUser req tbl (spy cl) (st, [])).2.2 =
       [CallDeleteItem
          {| DeleteItemInput_Key := {[ "email" := AttrS "" ]};
             DeleteItemInput_TableName := Some "" |}]).
Proof.
  cbv zeta. split; [|split; [|split]]; cycle 3.
  { intros Hq. rewrite DeleteUser_spy. unfold map_index. rewrite Hq. simpl.
    by destruct (DeleteUser req tbl cl st). }
  all: unfold DeleteUser, new_string;
    destruct (DeleteItem cl _ st) as [[e|out] st1]; simpl.
  - split; eauto.
  - split; [done|]. intros (? & ? & ?). done.
  - split; [done|]. intros (? & ? & ?). done.
  - split; eauto.
  - done.
  - done.
Qed.

(** X12. A write operation that reports an error has written nothing: on
    a store whose lookups leave it as it is and whose failed puts change
    nothing, a [CreateUser] or an [UpdateUser] that returns an error leaves
    the store in the state it started from. *)
Theorem failed_write_leaves_store req tbl cl st :
  (∀ i s, (GetItem cl i s).2 = s) →
  (∀ i s e s', PutItem cl i s = (inl e, s') → s' = s) →
  (is_Some (CreateUser IsEmailValid req tbl cl st).1.2 →
   (CreateUser IsEmailValid req tbl cl st).2 = st)
  ∧ (is_Some (UpdateUser req tbl cl st).1.2 →
     (UpdateUser req tbl cl st).2 = st).
Proof.
  intros Hget Hput.
  assert (Hf : ∀ email, (FetchUser email tbl cl st).2 = st).
  { intros email. unfold FetchUser. specialize (Hget (get_input email tbl) st).
    unfold aws_String. fold (get_input email tbl).
    destruct (GetItem cl _ st) as [[e|res] st1]; simpl in *; [done|].
    by destruct (UnmarshalMap _ _) as [item [e|]]. }
  assert (He : ∀ u, is_Some (encode_and_put u tbl cl st).1.2 →
                    (encode_and_put u tbl cl st).2 = st).
  { intros u. unfold encode_and_put.
    destruct (MarshalMap u) as [av [e|]]; simpl; [done|].
    destruct (PutItem cl _ st) as [[e|out] st2] eqn:Hp; simpl.
    - intros _. by eapply Hput.
    - by intros [? ?]. }
  destruct (json_Unmarshal (Body req) zero_User) as [u [e|]] eqn:Hd.
  { unfold CreateUser, UpdateUser. by rewrite Hd. }
  split.
  - destruct (IsEmailValid (Email u)) eqn:Hv; cycle 1.
    { unfold CreateUser. by rewrite Hd, Hv. }
    rewrite (CreateUser_unfold IsEmailValid _ _ _ _ u Hd Hv).
    specialize (Hf (Email u)).
    destruct (FetchUser (Email u) tbl cl st) as [[[cur|] e] st1];
      simpl in Hf; subst st1; [destruct (Nat.eqb _ 0)|]; auto.
  - rewrite (UpdateUser_unfold _ _ _ _ u Hd).
    specialize (Hf (Email u)).
    destruct (FetchUser (Email u) tbl cl st) as [[[cur|] e] st1];
      simpl in Hf; subst st1; [destruct (Nat.eqb _ 0)|]; auto.
Qed.

End user_operations.

(** ** The further properties at concrete inputs *)

Section more_examples.

Import stub.

(** Listing the table that holds alice. *)
Lemma FetchUsers_classification_witness :
  Scan client (mkScanInput (Some tableName)) db_alice
    = (inr (mkScanOutput [(marshal_user alice).1]), db_alice)
  ∧ FetchUsers tableName client db_alice = ((Some [alice], None), db_alice).
Proof.
  split; [vm_compute; reflexivity|].
  refine (proj1 (proj2 (proj2 (FetchUsers_classification tableName client
                                 db_alice)))
            (mkScanOutput [(marshal_user alice).1]) db_alice [alice] _ _).
  - vm_compute. reflexivity.
  - reflexivity.
Defined.

(** A body that is not an object. *)
Lemma decode_failure_no_request_witness :
  json_Unmarshal "oops" zero_User
    = (zero_User, Some (errors_New "invalid character"))
  ∧ CreateUser validators.IsEmailValid (request "POST" "oops") tableName
      (spy client) (db_alice, [])
    = ((None, Some (errors_New ErrorInvalidUserData)), (db_alice, []))
  ∧ UpdateUser (request "POST" "oops") tableName (spy client) (db_alice, [])
    = ((None, Some (errors_New ErrorInvalidUserData)), (db_alice, [])).
Proof.
  split; [reflexivity|].
  refine (decode_failure_no_request validators.IsEmailValid
            (request "POST" "oops") tableName client db_alice [] zero_User
            (errors_New "invalid character") _).
  reflexivity.
Defined.

(** Creating alice in the empty table: a lookup, then a put. *)
Lemma CreateUser_requests_witness :
  is_Some (CreateUser validators.IsEmailValid post_alice tableName
             (spy client) (empty_db, [])).1.1
  ∧ (CreateUser validators.IsEmailValid post_alice tableName
       (spy client) (empty_db, [])).2.2
    = [CallGetItem (get_input "a@b.co" tableName);
       CallPutItem (mkPutItemInput (marshal_user alice).1 (Some tableName))].
Proof.
  assert (Hs : is_Some (CreateUser validators.IsEmailValid post_alice
                          tableName (spy client) (empty_db, [])).1.1)
    by (vm_compute; eauto).
  split; [exact Hs|].
  exact (proj2 (proj2 (CreateUser_requests validators.IsEmailValid post_alice
                         tableName client empty_db)) Hs).
Defined.

(** Updating alice where she is stored: a lookup, then a put. *)
Lemma UpdateUser_requests_witness :
  is_Some (UpdateUser post_alice tableName (spy client) (db_alice, [])).1.1
  ∧ (UpdateUser post_alice tableName (spy client) (db_alice, [])).2.2
    = [CallGetItem (get_input "a@b.co" tableName);
       CallPutItem (mkPutItemInput (marshal_user alice).1 (Some tableName))].
Proof.
  assert (Hs : is_Some (UpdateUser post_alice tableName (spy client)
                          (db_alice, [])).1.1)
    by (vm_compute; eauto).
  split; [exact Hs|].
  exact (proj2 (proj2 (UpdateUser_requests post_alice tableName client
                         db_alice)) Hs).
Defined.

(** Creating alice in the empty table, read off the five conditions. *)
Lemma CreateUser_success_iff_witness :
  CreateUser validators.IsEmailValid post_alice tableName client empty_db
    = ((Some alice, None), db_alice).
Proof.
  apply (CreateUser_success_iff validators.IsEmailValid post_alice tableName
           client empty_db alice db_alice).
  split; [reflexivity|]. split; [reflexivity|].
  exists (Some zero_User), None, empty_db, (marshal_user alice).1,
    (mkPutItemOutput ∅).
  split; [vm_compute; reflexivity|]. split; [by intros ? [= <-]|].
  split; [reflexivity|]. vm_compute. reflexivity.
Defined.

(** Updating alice where she is stored, read off the four conditions. *)
Lemma UpdateUser_success_iff_witness :
  UpdateUser (request "PUT" (body "a@b.co" "Z" "")) tableName client db_alice
    = ((Some (mkUser "a@b.co" "Z" ""), None),
       (UpdateUser (request "PUT" (body "a@b.co" "Z" "")) tableName client
          db_alice).2).
Proof.
  apply (UpdateUser_success_iff (request "PUT" (body "a@b.co" "Z" ""))
           tableName client db_alice (mkUser "a@b.co" "Z" "")).
  split; [reflexivity|].
  exists (Some alice), None, db_alice,
    (marshal_user (mkUser "a@b.co" "Z" "")).1, (mkPutItemOutput ∅).
  split; [vm_compute; reflexivity|]. split; [by intros ? [= <-]|].
  split; [reflexivity|]. vm_compute. reflexivity.
Defined.

(** An update of alice whose body holds only her email: both names are
    gone afterwards. *)
Lemma Update_then_Fetch_witness :
  FetchUser "a@b.co" tableName client db_alice = ((Some alice, None), db_alice)
  ∧ (UpdateUser (request "PUT" (body_email "a@b.co")) tableName client
       db_alice).1 = (Some (mkUser "a@b.co" "" ""), None)
  ∧ (FetchUser "a@b.co" tableName client
       (UpdateUser (request "PUT" (body_email "a@b.co")) tableName client
          db_alice).2).1 = (Some (mkUser "a@b.co" "" ""), None).
Proof.
  split; [vm_compute; reflexivity|]. split; [vm_compute; reflexivity|].
  assert (Hu : UpdateUser (request "PUT" (body_email "a@b.co")) tableName
                 client db_alice
               = ((Some (mkUser "a@b.co" "" ""), None),
                  (UpdateUser (request "PUT" (body_email "a@b.co")) tableName
                     client db_alice).2))
    by (vm_compute; reflexivity).
  assert (Hne : Email (mkUser "a@b.co" "" "") ≠ "") by discriminate.
  destruct (Update_then_Fetch _ _ _ _ _ _
              stub_codec_roundtrip stub_get_after_put Hne Hu) as [_ Hf].
  simpl in Hf. by rewrite Hf.
Defined.

(** Alice is created; a second body with her email and other names is
    refused and she reads back unchanged. *)
Lemma Create_twice_witness :
  CreateUser validators.IsEmailValid post_alice tableName client empty_db
    = ((Some alice, None), db_alice)
  ∧ CreateUser validators.IsEmailValid
      (request "POST" (body "a@b.co" "Eve" "E")) tableName client db_alice
    = ((None, Some (errors_New ErrorUserAlreadyExists)), db_alice)
  ∧ FetchUser "a@b.co" tableName client db_alice
    = ((Some alice, None), db_alice).
Proof.
  assert (Hc : CreateUser validators.IsEmailValid post_alice tableName client
                 empty_db = ((Some alice, None), db_alice))
    by (vm_compute; reflexivity).
  split; [exact Hc|].
  refine (Create_twice validators.IsEmailValid post_alice
            (request "POST" (body "a@b.co" "Eve" "E")) tableName client
            empty_db alice (mkUser "a@b.co" "Eve" "E") db_alice
            stub_codec_roundtrip stub_get_after_put IsEmailValid_nonempty
            Hc _ _); reflexivity.
Defined.

(** On the store that holds alice, create is refused and update writes. *)
Lemma create_update_complementary_witness :
  FetchUser "a@b.co" tableName client db_alice = ((Some alice, None), db_alice)
  ∧ ((Email alice = ""
      ∧ CreateUser validators.IsEmailValid post_alice tableName client db_alice
        = encode_and_put alice tableName client db_alice
      ∧ UpdateUser post_alice tableName client db_alice
        = ((None, Some (errors_New ErrorUserDoesNotExists)), db_alice))
     ∨ (Email alice ≠ ""
        ∧ CreateUser validators.IsEmailValid post_alice tableName client
            db_alice
          = ((None, Some (errors_New ErrorUserAlreadyExists)), db_alice)
        ∧ UpdateUser post_alice tableName client db_alice
          = encode_and_put alice tableName client db_alice)).
Proof.
  assert (Hf : FetchUser (Email alice) tableName client db_alice
               = ((Some alice, None), db_alice)) by (vm_compute; reflexivity).
  split; [exact Hf|].
  refine (create_update_complementary validators.IsEmailValid post_alice
            tableName client db_alice alice alice db_alice _ _ Hf);
    reflexivity.
Defined.

(** A delete request that carries no email parameter. *)
Lemma DeleteUser_classification_witness :
  QueryStringParameters (request "DELETE" "") !! "email" = None
  ∧ (DeleteUser (request "DELETE" "") tableName (spy client)
       (db_alice, [])).2.2 =
      [CallDeleteItem
         {| DeleteItemInput_Key := {[ "email" := AttrS "" ]};
            DeleteItemInput_TableName := Some "" |}].
Proof.
  split; [reflexivity|].
  refine (proj2 (proj2 (proj2 (DeleteUser_classification
                                 (request "DELETE" "") tableName client
                                 db_alice))) _).
  reflexivity.
Defined.

Lemma stub_get_readonly i s : (GetItem client i s).2 = s.
Proof.
  simpl. unfold with_table. destruct (GetItemInput_TableName i); [|done].
  destruct (s !! _); [|done]. by destruct (key_of _).
Qed.

Lemma stub_put_failed i s e s' : PutItem client i s = (inl e, s') → s' = s.
Proof.
  simpl. unfold with_table. destruct (PutItemInput_TableName i); [|congruence].
  destruct (s !! _); [|congruence]. destruct (key_of _); congruence.
Qed.

(** Creating alice where she is stored, and updating her where she is not:
    both fail and the store stays. *)
Lemma failed_write_leaves_store_witness :
  is_Some (CreateUser validators.IsEmailValid post_alice tableName client
             db_alice).1.2
  ∧ (CreateUser validators.IsEmailValid post_alice tableName client
       db_alice).2 = db_alice
  ∧ is_Some (UpdateUser post_alice tableName client empty_db).1.2
  ∧ (UpdateUser post_alice tableName client empty_db).2 = empty_db.
Proof.
  assert (Hc : is_Some (CreateUser validators.IsEmailValid post_alice
                          tableName client db_alice).1.2)
    by (vm_compute; eauto).
  assert (Hu : is_Some (UpdateUser post_alice tableName client empty_db).1.2)
    by (vm_compute; eauto).
  split; [exact Hc|]. split.
  - exact (proj1 (failed_write_leaves_store validators.IsEmailValid
                    post_alice tableName client db_alice
                    stub_get_readonly stub_put_failed) Hc).
  - split; [exact Hu|].
    exact (proj2 (failed_write_leaves_store validators.IsEmailValid
                    post_alice tableName client empty_db
                    stub_get_readonly stub_put_failed) Hu).
Defined.

End more_examples.
